(** * OpenTelemetry Bedrock instrumentation: a shallow embedding

    Source: packages/opentelemetry-instrumentation-bedrock/
            opentelemetry/instrumentation/bedrock/__init__.py

    The module monkey-patches botocore's [ClientCreator.create_client]; for
    clients of the [bedrock-runtime] service it replaces [invoke_model] by a
    closure that opens a span around the underlying call and annotates it.

    The embedding keeps the Python shape of the code: values of the dynamic
    language are an inductive type, the effects (exceptions, the mutable
    response stream, calls into the tracing API, [print]) are threaded by a
    small monad, and the libraries the module only calls into (the tracing
    API, [json], the semantic-convention constants, botocore) are interfaces. *)

From Stdlib Require Import ZArith QArith.
From Stdlib.Strings Require Import Byte Ascii String.
From stdpp Require Import gmap strings list pretty.

Open Scope string_scope.
Open Scope list_scope.

(* ===================================================================== *)
(** ** Python values and exceptions *)
(* ===================================================================== *)

Abbreviation bytes := (list byte).

(** The fragment of Python's value universe that flows through the module:
    what [json.loads] produces, what botocore accepts as keyword arguments,
    the streaming body of a response (a reference into the heap of streams)
    and opaque objects (modules, functions, classes). *)
#[warnings="-register-all"] Inductive pyval : Type :=
| PNone
| PBool (b : bool)
| PInt (n : Z)
| PFloat (q : Q)
| PStr (s : string)
| PBytes (b : bytes)
| PList (xs : list pyval)
| PDict (kvs : list (string * pyval))
| PStream (id : nat)
| PObj (name : string).

Inductive exn : Type :=
| NameError (name : string)
| TypeError (msg : string)
| ValueError (msg : string)
| AttributeError (msg : string)
| JSONDecodeError (msg : string)
| ClientError (code : string) (msg : string).

Inductive result (A : Type) : Type :=
| Ok (a : A)
| Raise (e : exn).
Arguments Ok {A} a.
Arguments Raise {A} e.

(** Python truthiness ([bool(v)]), as used by [if], [and] and [or]. *)
Definition truthy (v : pyval) : bool :=
  match v with
  | PNone => false
  | PBool b => b
  | PInt n => negb (n =? 0)%Z
  | PFloat q => negb (Qeq_bool q 0)
  | PStr s => negb (String.eqb s "")
  | PBytes b => negb (Nat.eqb (length b) 0)
  | PList xs => negb (Nat.eqb (length xs) 0)
  | PDict kvs => negb (Nat.eqb (length kvs) 0)
  | PStream _ => true
  | PObj _ => true
  end.

(** [v == s] for a string literal [s]: only the [str] with the same
    characters compares equal. *)
Definition py_eq_str (v : pyval) (s : string) : bool :=
  match v with
  | PStr s' => String.eqb s' s
  | _ => false
  end.

(** [v is None]. *)
Definition is_none (v : pyval) : bool :=
  match v with
  | PNone => true
  | _ => false
  end.

Fixpoint assoc (kvs : list (string * pyval)) (k : string) : option pyval :=
  match kvs with
  | [] => None
  | (k', v) :: rest => if String.eqb k' k then Some v else assoc rest k
  end.

(** [str.lower()]. Environment values are modelled as byte strings; only
    the ASCII capitals change, which is all that can matter for a
    comparison with ["true"] (no other code point lowers to one of
    [t], [r], [u], [e]). *)
Definition ascii_lower (c : ascii) : ascii :=
  let n := nat_of_ascii c in
  if (65 <=? n)%nat && (n <=? 90)%nat then ascii_of_nat (n + 32) else c.

Fixpoint lower (s : string) : string :=
  match s with
  | EmptyString => EmptyString
  | String c s' => String (ascii_lower c) (lower s')
  end.

(* ===================================================================== *)
(** ** The effects of a call *)
(* ===================================================================== *)

Inductive SpanKind : Type := INTERNAL | SERVER | CLIENT | PRODUCER | CONSUMER.

(** What a call does to the outside world, in program order: the calls
    into the tracing API and the lines written by [print]. *)
Inductive event : Type :=
| EvSpanStart (name : string) (kind : SpanKind)
| EvSetAttribute (name : string) (value : pyval)
| EvRecordException (e : exn)
| EvSetStatusError
| EvSpanEnd
| EvPrint (args : list pyval).

(** The process environment ([os.environ]) and the current tracing context
    ([context_api.get_value]); both are only read. *)
Record Env : Type := mkEnv {
  environ : gmap string string;
  context : gmap string pyval
}.

(** The mutable part: every [StreamingBody] is a cell holding the chunks
    that have not been read yet. A response refers to its body by
    [PStream id], so reading through one reference is seen through all. *)
Abbreviation Heap := (gmap nat (list bytes)).

Record outcome (A : Type) : Type := mkOutcome {
  result_of : result A;
  heap_of : Heap;
  trace_of : list event
}.
Arguments mkOutcome {A} _ _ _.
Arguments result_of {A} _.
Arguments heap_of {A} _.
Arguments trace_of {A} _.

Definition M (A : Type) : Type := Env -> Heap -> outcome A.

Definition ret {A} (a : A) : M A := fun _ h => mkOutcome (Ok a) h [].

Definition raise {A} (e : exn) : M A := fun _ h => mkOutcome (Raise e) h [].

Definition bind {A B} (m : M A) (k : A -> M B) : M B :=
  fun env h =>
    let o := m env h in
    match result_of o with
    | Ok a =>
        let o' := k a env (heap_of o) in
        mkOutcome (result_of o') (heap_of o') (trace_of o ++ trace_of o')%list
    | Raise e => mkOutcome (Raise e) (heap_of o) (trace_of o)
    end.

Definition tell (evs : list event) : M unit :=
  fun _ h => mkOutcome (Ok tt) h evs.

Definition lift {A} (r : result A) : M A :=
  fun _ h => mkOutcome r h [].

#[export] Instance M_ret : MRet M := @ret.
#[export] Instance M_bind : MBind M := fun A B k m => bind m k.

(** [os.getenv(name)]. *)
Definition getenv (name : string) : M (option string) :=
  fun env h => mkOutcome (Ok (environ env !! name)) h [].

(** [context_api.get_value(key)]: the value under [key] in the current
    context, [None] when the key is absent. *)
Definition get_value (key : string) : M pyval :=
  fun env h => mkOutcome (Ok (default PNone (context env !! key))) h [].

(** [kwargs.get(k)]. *)
Definition kwargs_get (kwargs : gmap string pyval) (k : string) : pyval :=
  default PNone (kwargs !! k).

(** [v.get(k)]: defined on dictionaries; any other value of the universe
    has no such method. *)
Definition py_get (v : pyval) (k : string) : M pyval :=
  match v with
  | PDict kvs => ret (default PNone (assoc kvs k))
  | _ => raise (AttributeError "get")
  end.

Definition char_strings (s : string) : list pyval :=
  (fun c => PStr (String c EmptyString)) <$> list_ascii_of_string s.

Definition byte_ints (b : bytes) : list pyval :=
  (fun x => PInt (Z.of_N (Byte.to_N x))) <$> b.

(** [iter(v)], run to exhaustion. *)
Definition py_iter (v : pyval) : M (list pyval) :=
  match v with
  | PList xs => ret xs
  | PStr s => ret (char_strings s)
  | PBytes b => ret (byte_ints b)
  | PDict kvs => ret ((fun kv => PStr (fst kv)) <$> kvs)
  | _ => raise (TypeError "object is not iterable")
  end.

(** [(a, b) = v]: tuple unpacking into exactly two targets. *)
Definition unpack2 (v : pyval) : M (pyval * pyval) :=
  items ← py_iter v;
  match items with
  | [a; b] => ret (a, b)
  | [] | [_] => raise (ValueError "not enough values to unpack")
  | _ => raise (ValueError "too many values to unpack")
  end.

(** [for i, x in enumerate(xs): body(i, x)], counting from [i]. *)
Fixpoint for_enumerate (i : nat) (xs : list pyval)
    (body : nat -> pyval -> M unit) : M unit :=
  match xs with
  | [] => ret tt
  | x :: rest => body i x ;; for_enumerate (S i) rest body
  end.

(* ===================================================================== *)
(** ** What the module imports *)
(* ===================================================================== *)

(** The names the module takes from packages that are not part of this
    file: the attribute names of [opentelemetry.semconv.ai]
    ([SpanAttributes.*], [LLMRequestTypeValues.COMPLETION.value]), the
    context key of [opentelemetry.instrumentation.utils], and the JSON
    grammar behind [json.loads] (the decoded value, or the exception the
    decoder raises). *)
Class Imports : Type := {
  LLM_VENDOR : string;
  LLM_REQUEST_TYPE : string;
  LLM_REQUEST_MODEL : string;
  LLM_TEMPERATURE : string;
  LLM_TOP_P : string;
  LLM_REQUEST_MAX_TOKENS : string;
  LLM_PROMPTS : string;
  LLM_COMPLETIONS : string;
  COMPLETION_value : string;
  _SUPPRESS_INSTRUMENTATION_KEY : string;
  json_decode : bytes -> result pyval
}.

(** [json.loads(s)]: [str], [bytes] and [bytearray] are decoded, anything
    else is a [TypeError]. The call touches nothing but its argument. *)
Definition loads `{Imports} (s : pyval) : result pyval :=
  match s with
  | PStr t => json_decode (list_byte_of_string t)
  | PBytes b => json_decode b
  | _ => Raise (TypeError "the JSON object must be str, bytes or bytearray")
  end.

Definition json_loads `{Imports} (s : pyval) : M pyval := lift (loads s).

(** A tracer decides, when a span is started, whether it records. *)
Record Tracer : Type := mkTracer {
  should_record : string -> SpanKind -> bool
}.

Record Span : Type := mkSpan {
  is_recording : bool
}.

(** [span.set_attribute(name, value)]: a span that does not record
    ignores the call. *)
Definition set_attribute (span : Span) (name : string) (value : pyval) : M unit :=
  if is_recording span then tell [EvSetAttribute name value] else ret tt.

(** What the context manager does when the block is left: an exception
    is recorded on the span and marks its status, and goes on to the
    caller; in every case the span is ended. *)
Definition on_exit {A} (span : Span) (r : result A) : list event :=
  match r with
  | Ok _ => [EvSpanEnd]
  | Raise e =>
      if is_recording span
      then [EvRecordException e; EvSetStatusError; EvSpanEnd]
      else [EvSpanEnd]
  end.

(** [with tracer.start_as_current_span(name, kind=kind) as span: block]. *)
Definition start_as_current_span {A} (tracer : Tracer) (name : string)
    (kind : SpanKind) (block : Span -> M A) : M A :=
  fun env h =>
    let span := mkSpan (should_record tracer name kind) in
    let o := block span env h in
    mkOutcome (result_of o) (heap_of o)
      (EvSpanStart name kind :: (trace_of o ++ on_exit span (result_of o))%list).

(** [body.iter_chunks()], run to exhaustion: every chunk still in the
    stream is handed out and the stream is left empty. Only a streaming
    body has the method. *)
Definition iter_chunks (body : pyval) : M (list bytes) :=
  match body with
  | PStream id =>
      fun _ h => mkOutcome (Ok (default [] (h !! id))) (<[id := []]> h) []
  | _ => raise (AttributeError "iter_chunks")
  end.

(** The names bound in the module's global namespace, in the order the
    module binds them (imports, assignments, [def]s and the class). A
    name that a function body reads without ever assigning it is looked
    up here (and then among the builtins, which have no [modelId]). *)
Definition module_globals : list string :=
  [ "wraps"; "tee"; "json"; "logging"; "os"; "Collection";
    "wrap_function_wrapper"; "context_api"; "get_tracer"; "SpanKind";
    "Status"; "StatusCode"; "BaseInstrumentor";
    "_SUPPRESS_INSTRUMENTATION_KEY"; "unwrap"; "SpanAttributes";
    "LLMRequestTypeValues"; "__version__"; "StreamingBody"; "logger";
    "_instruments"; "WRAPPED_METHODS"; "should_send_prompts";
    "_set_span_attribute"; "_with_tracer_wrapper"; "_wrap";
    "_instrumented_model_invoke"; "_get_body";
    "_set_cohere_span_attributes"; "_set_anthropic_span_attributes";
    "_set_ai21_span_attributes"; "_set_llama_span_attributes";
    "BedrockInstrumentor" ].

Definition load_global (name : string) : M pyval :=
  if bool_decide (name ∈ module_globals)
  then ret (PObj name)
  else raise (NameError name).

(* ===================================================================== *)
(** ** The module *)
(* ===================================================================== *)

Section Instrumentation.
Context `{Imports}.

(** [should_send_prompts()], lines 37-40. *)
Definition should_send_prompts : M pyval :=
  v ← getenv "TRACELOOP_TRACE_CONTENT";
  let s := match v with
           | Some s => if String.eqb s "" then "true" else s
           | None => "true"
           end in
  if String.eqb (lower s) "true"
  then ret (PBool true)
  else get_value "override_enable_content_tracing".

(** [_set_span_attribute(span, name, value)], lines 43-47. *)
Definition _set_span_attribute (span : Span) (name : string) (value : pyval)
    : M unit :=
  if negb (is_none value) then
    if negb (py_eq_str value "") then set_attribute span name value
    else ret tt
  else ret tt.

(** The loop of [_get_body]: the first chunk becomes the buffer, every
    later one is appended. *)
Definition accumulate (buffer : option bytes) (chunk : bytes) : option bytes :=
  match buffer with
  | None => Some chunk
  | Some b => Some (b ++ chunk)%list
  end.

Definition buffer_value (buffer : option bytes) : pyval :=
  match buffer with
  | None => PNone
  | Some b => PBytes b
  end.

(** [_get_body(response, content_type)], lines 115-128. *)
Definition _get_body (response : pyval) (content_type : pyval) : M pyval :=
  body ← py_get response "body";
  chunks ← iter_chunks body;
  let buffer := fold_left accumulate chunks None in
  if py_eq_str content_type "application/json" then
    json_loads (buffer_value buffer)
  else if py_eq_str content_type "application/xml" then
    ret PNone
  else
    ret PNone.

(** Lines 130-134. *)
Definition _set_cohere_span_attributes (span : Span) (request_body : pyval)
    : M unit :=
  _set_span_attribute span LLM_REQUEST_TYPE (PStr COMPLETION_value);;
  v ← py_get request_body "p";
  _set_span_attribute span LLM_TOP_P v;;
  v ← py_get request_body "temperature";
  _set_span_attribute span LLM_TEMPERATURE v;;
  v ← py_get request_body "max_tokens";
  _set_span_attribute span LLM_REQUEST_MAX_TOKENS v.

(** Lines 136-140. *)
Definition _set_anthropic_span_attributes (span : Span) (request_body : pyval)
    : M unit :=
  _set_span_attribute span LLM_REQUEST_TYPE (PStr COMPLETION_value);;
  v ← py_get request_body "top_p";
  _set_span_attribute span LLM_TOP_P v;;
  v ← py_get request_body "temperature";
  _set_span_attribute span LLM_TEMPERATURE v;;
  v ← py_get request_body "max_tokens_to_sample";
  _set_span_attribute span LLM_REQUEST_MAX_TOKENS v.

(** Lines 142-146. *)
Definition _set_ai21_span_attributes (span : Span) (request_body : pyval)
    : M unit :=
  _set_span_attribute span LLM_REQUEST_TYPE (PStr COMPLETION_value);;
  v ← py_get request_body "topP";
  _set_span_attribute span LLM_TOP_P v;;
  v ← py_get request_body "temperature";
  _set_span_attribute span LLM_TEMPERATURE v;;
  v ← py_get request_body "maxTokens";
  _set_span_attribute span LLM_REQUEST_MAX_TOKENS v.

(** Lines 148-152. *)
Definition _set_llama_span_attributes (span : Span) (request_body : pyval)
    : M unit :=
  _set_span_attribute span LLM_REQUEST_TYPE (PStr COMPLETION_value);;
  v ← py_get request_body "top_p";
  _set_span_attribute span LLM_TOP_P v;;
  v ← py_get request_body "temperature";
  _set_span_attribute span LLM_TEMPERATURE v;;
  v ← py_get request_body "max_gen_len";
  _set_span_attribute span LLM_REQUEST_MAX_TOKENS v.

(** The block under [if span.is_recording() and modelId:], lines 90-109.
    [vendor] and [model] come from unpacking the [modelId] keyword
    argument into two targets. *)
Definition record_attributes (span : Span) (kwargs : gmap string pyval)
    (request_body response_body : pyval) : M unit :=
  '(vendor, model) ← unpack2 (kwargs_get kwargs "modelId");
  _set_span_attribute span LLM_VENDOR vendor;;
  _set_span_attribute span LLM_REQUEST_MODEL model;;
  (if py_eq_str vendor "cohere" then
     _set_cohere_span_attributes span request_body
   else if py_eq_str vendor "anthropic" then
     _set_anthropic_span_attributes span request_body
   else if py_eq_str vendor "ai21" then
     _set_ai21_span_attributes span request_body
   else if py_eq_str vendor "meta" then
     _set_llama_span_attributes span request_body
   else ret tt);;
  send ← should_send_prompts;
  if truthy send then
    prompt ← py_get request_body "prompt";
    _set_span_attribute span (String.append LLM_PROMPTS ".0.user") prompt;;
    generations ← py_get response_body "generations";
    items ← py_iter generations;
    for_enumerate 0 items (fun i generation =>
      text ← py_get generation "text";
      tell [EvPrint [PStr (String.append (pretty i) ":"); text]];;
      text ← py_get generation "text";
      _set_span_attribute span
        (String.append LLM_COMPLETIONS
           (String.append "." (String.append (pretty i) ".content")))
        text)
  else ret tt.

(** A bound method such as [client.invoke_model]: positional and keyword
    arguments in, a response or an exception out. *)
Definition Callable : Type := list pyval -> gmap string pyval -> M pyval.

(** [with_instrumentation], lines 80-111, the closure
    over [fn] and [tracer]. In the condition of line 89 the right operand
    of [and] is the name [modelId], which the function never assigns: it
    is read from the global namespace, and only when the left operand is
    true. *)
Definition with_instrumentation (fn : Callable) (tracer : Tracer)
    (args : list pyval) (kwargs : gmap string pyval) : M pyval :=
  start_as_current_span tracer "bedrock.completion" CLIENT (fun span =>
    response ← fn args kwargs;
    request_body ← json_loads (kwargs_get kwargs "body");
    response_body ← _get_body response (kwargs_get kwargs "accept");
    cond ← (if is_recording span
            then load_global "modelId"
            else ret (PBool false));
    (if truthy cond
     then record_attributes span kwargs request_body response_body
     else ret tt);;
    ret response).

(** [_instrumented_model_invoke(fn, tracer)], lines 78-113. *)
Definition _instrumented_model_invoke (fn : Callable) (tracer : Tracer)
    : Callable :=
  with_instrumentation fn tracer.

(** A botocore client object, as far as the module touches it: the
    [invoke_model] attribute, which [_wrap] reassigns, and everything
    else it carries. *)
Record Client : Type := mkClient {
  invoke_model : Callable;
  client_attrs : gmap string pyval
}.

Definition set_invoke_model (client : Client) (f : Callable) : Client :=
  mkClient f (client_attrs client).

(** The wrapped [ClientCreator.create_client]. *)
Definition Factory : Type := list pyval -> gmap string pyval -> M Client.

(** [_with_tracer_wrapper(func)], lines 51-60. *)
Definition _with_tracer_wrapper {T W I R : Type}
    (func : Tracer -> T -> W -> I -> list pyval -> gmap string pyval -> R)
    : Tracer -> T -> W -> I -> list pyval -> gmap string pyval -> R :=
  fun tracer to_wrap =>
    fun wrapped instance args kwargs =>
      func tracer to_wrap wrapped instance args kwargs.

(** The function that line 63 decorates, lines 64-75. *)
Definition _wrap_func (tracer : Tracer) (to_wrap : gmap string string)
    (wrapped : Factory) (instance : pyval)
    (args : list pyval) (kwargs : gmap string pyval) : M Client :=
  suppress ← get_value _SUPPRESS_INSTRUMENTATION_KEY;
  if truthy suppress then
    wrapped args kwargs
  else if py_eq_str (kwargs_get kwargs "service_name") "bedrock-runtime" then
    client ← wrapped args kwargs;
    ret (set_invoke_model client
           (_instrumented_model_invoke (invoke_model client) tracer))
  else
    wrapped args kwargs.

(** [_wrap], the decorated function. *)
Definition _wrap := _with_tracer_wrapper _wrap_func.

End Instrumentation.

(* ===================================================================== *)
(** ** The instrumentor *)
(* ===================================================================== *)

(** [WRAPPED_METHODS], lines 28-34. *)
Definition WRAPPED_METHODS : list (gmap string string) :=
  [ {[ "package" := "botocore.client";
       "object" := "ClientCreator";
       "method" := "create_client" ]} ].

(** The calls [BedrockInstrumentor] makes into the patching libraries:
    [wrap_function_wrapper(module, name, wrapper)] of [wrapt] and
    [unwrap(obj, attr)] of [opentelemetry.instrumentation.utils]. An
    entry's [.get] gives [None] for a key it lacks. *)
Inductive patch_call : Type :=
| WrapFunctionWrapper (module : option string) (name : string)
    (wrapper : Factory -> pyval -> list pyval -> gmap string pyval -> M Client)
| Unwrap (obj : string) (attr : option string).

(** How an f-string renders a value that is a string or [None]. *)
Definition fstr (o : option string) : string := default "None" o.

(** The loop of [_instrument], lines 164-172, over a table of entries. *)
Definition instrument_calls `{Imports} (tracer : Tracer)
    (methods : list (gmap string string)) : list patch_call :=
  (fun wrapped_method : gmap string string =>
     let wrap_package := wrapped_method !! "package" in
     let wrap_object := wrapped_method !! "object" in
     let wrap_method := wrapped_method !! "method" in
     WrapFunctionWrapper wrap_package
       (String.append (fstr wrap_object) (String.append "." (fstr wrap_method)))
       (_wrap tracer wrapped_method)) <$> methods.

(** [BedrockInstrumentor._instrument], lines 161-172; [get_tracer] is the
    tracing API's, applied to the provider found in the keyword
    arguments. *)
Definition _instrument `{Imports} (get_tracer : pyval -> Tracer)
    (kwargs : gmap string pyval) : list patch_call :=
  let tracer_provider := kwargs_get kwargs "tracer_provider" in
  let tracer := get_tracer tracer_provider in
  instrument_calls tracer WRAPPED_METHODS.

(** The loop of [_uninstrument], lines 175-181, over a table of entries. *)
Definition uninstrument_calls (methods : list (gmap string string))
    : list patch_call :=
  (fun wrapped_method : gmap string string =>
     let wrap_package := wrapped_method !! "package" in
     let wrap_object := wrapped_method !! "object" in
     Unwrap
       (String.append (fstr wrap_package) (String.append "." (fstr wrap_object)))
       (wrapped_method !! "method")) <$> methods.

(** [BedrockInstrumentor._uninstrument], lines 174-181. *)
Definition _uninstrument (kwargs : gmap string pyval) : list patch_call :=
  uninstrument_calls WRAPPED_METHODS.

(** The dotted path of the attribute a call patches or restores. *)
Definition patch_target (c : patch_call) : string :=
  match c with
  | WrapFunctionWrapper module name _ =>
      String.append (fstr module) (String.append "." name)
  | Unwrap obj attr =>
      String.append obj (String.append "." (fstr attr))
  end.

Definition is_wrap (c : patch_call) : bool :=
  match c with
  | WrapFunctionWrapper _ _ _ => true
  | Unwrap _ _ => false
  end.

(* ===================================================================== *)
(** ** The vendors *)
(* ===================================================================== *)

(** The four vendors lines 95-102 tell apart, the name each goes by, the
    helper each is sent to, and the request fields each helper reads. *)
Inductive vendor : Type := Cohere | Anthropic | AI21 | Meta.

Definition vendor_name (v : vendor) : string :=
  match v with
  | Cohere => "cohere"
  | Anthropic => "anthropic"
  | AI21 => "ai21"
  | Meta => "meta"
  end.

Definition vendor_helper `{Imports} (v : vendor) : Span -> pyval -> M unit :=
  match v with
  | Cohere => _set_cohere_span_attributes
  | Anthropic => _set_anthropic_span_attributes
  | AI21 => _set_ai21_span_attributes
  | Meta => _set_llama_span_attributes
  end.

Definition top_p_field (v : vendor) : string :=
  match v with
  | Cohere => "p"
  | Anthropic => "top_p"
  | AI21 => "topP"
  | Meta => "top_p"
  end.

Definition temperature_field (v : vendor) : string := "temperature".

Definition max_tokens_field (v : vendor) : string :=
  match v with
  | Cohere => "max_tokens"
  | Anthropic => "max_tokens_to_sample"
  | AI21 => "maxTokens"
  | Meta => "max_gen_len"
  end.

(* ===================================================================== *)
(** ** Reading a trace *)
(* ===================================================================== *)

Definition is_span_start (ev : event) : bool :=
  match ev with
  | EvSpanStart _ _ => true
  | _ => false
  end.

Definition is_span_end (ev : event) : bool :=
  match ev with
  | EvSpanEnd => true
  | _ => false
  end.

Definition is_set_attribute (ev : event) : bool :=
  match ev with
  | EvSetAttribute _ _ => true
  | _ => false
  end.

Definition count (p : event -> bool) (tr : list event) : nat :=
  length (filter (fun ev => p ev = true) tr).

(** What an [if] makes of the outcome of a call: the truth value of
    the returned object. *)
Definition holds (o : outcome pyval) : bool :=
  match result_of o with
  | Ok v => truthy v
  | Raise _ => false
  end.

(** What one [_set_span_attribute(span, name, value)] leaves in the
    trace: the attribute, unless the value is [None] or the empty string
    or the span does not record. *)
Definition set_events (span : Span) (name : string) (value : pyval)
    : list event :=
  if is_none value || py_eq_str value "" || negb (is_recording span)
  then []
  else [EvSetAttribute name value].

(** The attributes a trace leaves on the span, oldest first. *)
Definition attributes (tr : list event) : list (string * pyval) :=
  omap (fun ev => match ev with
                  | EvSetAttribute n v => Some (n, v)
                  | _ => None
                  end) tr.

(** What is left to read of a response's body: the caller's
    [response["body"].read()]. *)
Definition unread (response : pyval) (h : Heap) : option bytes :=
  match response with
  | PDict kvs =>
      match assoc kvs "body" with
      | Some (PStream id) => (fun chunks => concat chunks) <$> h !! id
      | _ => None
      end
  | _ => None
  end.

(** The stream a response holds under ["body"], if it holds one. *)
Definition body_stream (response : pyval) : option nat :=
  match response with
  | PDict kvs =>
      match assoc kvs "body" with
      | Some (PStream id) => Some id
      | _ => None
      end
  | _ => None
  end.

(** The buffer [_get_body] hands to [json.loads] after reading [chunks]:
    their concatenation in order, or [None] when there was none. *)
Definition joined (chunks : list bytes) : pyval :=
  match chunks with
  | [] => PNone
  | _ => PBytes (concat chunks)
  end.

(** Content tracing as the specification words it: the variable
    [TRACELOOP_TRACE_CONTENT] is unset or equals ["true"] up to case, or
    the context value [override_enable_content_tracing] is set. *)
Definition content_tracing_enabled_spec (env : Env) : bool :=
  match environ env !! "TRACELOOP_TRACE_CONTENT" with
  | None => true
  | Some s => String.eqb (lower s) "true"
  end
  || truthy (default PNone (context env !! "override_enable_content_tracing")).

(* ===================================================================== *)
(** ** Fixtures *)
(* ===================================================================== *)

Definition dq : string := String "034"%char EmptyString.

Definition quoted (s : string) : string := String.append dq (String.append s dq).

Definition join (sep : string) (parts : list string) : string :=
  match parts with
  | [] => ""
  | p :: ps => fold_left (fun acc x => String.append acc (String.append sep x)) ps p
  end.

(** A JSON text for a value built from [None], booleans, integers,
    strings without escapes, lists and dictionaries. *)
Fixpoint json_text (v : pyval) : string :=
  match v with
  | PBool true => "true"
  | PBool false => "false"
  | PInt n => pretty n
  | PStr s => quoted s
  | PList xs => String.append "[" (String.append (join ", " (map json_text xs)) "]")
  | PDict kvs =>
      String.append "{"
        (String.append
           (join ", " (map (fun kv : string * pyval => let (k, x) := kv in
                              String.append (quoted k)
                                (String.append ": " (json_text x))) kvs))
           "}")
  | _ => "null"
  end.

Definition cohere_request : pyval :=
  PDict [ ("prompt", PStr "Hello"); ("p", PInt 1); ("temperature", PInt 1);
          ("max_tokens", PInt 20) ].

Definition cohere_reply : pyval :=
  PDict [ ("generations", PList [ PDict [ ("text", PStr "Hi there") ] ]) ].

(** A decoder for the documents of the examples: it agrees with
    [json.loads] on the two texts above and rejects everything else. *)
Definition decode_examples (b : bytes) : result pyval :=
  let s := string_of_list_byte b in
  if String.eqb s (json_text cohere_request) then Ok cohere_request
  else if String.eqb s (json_text cohere_reply) then Ok cohere_reply
  else Raise (JSONDecodeError "Expecting value").

(** Modelled from the spec: the attribute names of
    [opentelemetry.semconv.ai], a package of the repository that is not
    among the sources at hand; the names follow the shared schema of
    request-type, vendor, model, temperature, top-p, max-token, prompt and
    completion attributes. *)
Definition example_imports : Imports := {|
  LLM_VENDOR := "llm.vendor";
  LLM_REQUEST_TYPE := "llm.request.type";
  LLM_REQUEST_MODEL := "llm.request.model";
  LLM_TEMPERATURE := "llm.temperature";
  LLM_TOP_P := "llm.top_p";
  LLM_REQUEST_MAX_TOKENS := "llm.request.max_tokens";
  LLM_PROMPTS := "llm.prompts";
  LLM_COMPLETIONS := "llm.completions";
  COMPLETION_value := "completion";
  _SUPPRESS_INSTRUMENTATION_KEY := "suppress_instrumentation";
  json_decode := decode_examples
|}.

Definition reply_chunks : list bytes :=
  let b := list_byte_of_string (json_text cohere_reply) in
  [ take 16 b; drop 16 b ].

Definition reply_response : pyval :=
  PDict [ ("body", PStream 0); ("contentType", PStr "application/json") ].

(** An [invoke_model] that answers: the response's body is a fresh stream
    holding the reply in two chunks. *)
Definition bedrock_answers : Callable :=
  fun _ _ _ h => mkOutcome (Ok reply_response) (<[0%nat := reply_chunks]> h) [].

(** An [invoke_model] that fails. *)
Definition throttled : exn :=
  ClientError "ThrottlingException" "Too many requests".

Definition bedrock_throttles : Callable :=
  fun _ _ _ h => mkOutcome (Raise throttled) h [].

Definition cohere_kwargs : gmap string pyval :=
  {[ "modelId" := PStr "cohere.command-text-v14";
     "body" := PStr (json_text cohere_request);
     "accept" := PStr "application/json";
     "contentType" := PStr "application/json" ]}.

Definition recording_tracer : Tracer := mkTracer (fun _ _ => true).
Definition dropping_tracer : Tracer := mkTracer (fun _ _ => false).

Definition plain_env : Env := mkEnv ∅ ∅.

Definition empty_flag_env : Env :=
  mkEnv {[ "TRACELOOP_TRACE_CONTENT" := "" ]} ∅.

Definition suppressed_env : Env :=
  mkEnv ∅ {[ "suppress_instrumentation" := PBool true ]}.

Definition fresh_client : Client := mkClient bedrock_answers ∅.

Definition create_client : Factory :=
  fun _ _ _ h => mkOutcome (Ok fresh_client) h [].

Definition runtime_kwargs : gmap string pyval :=
  {[ "service_name" := PStr "bedrock-runtime" ]}.

Definition s3_kwargs : gmap string pyval :=
  {[ "service_name" := PStr "s3" ]}.

(** The request of the example without its [body]. *)
Definition bodyless_kwargs : gmap string pyval :=
  {[ "modelId" := PStr "cohere.command-text-v14";
     "accept" := PStr "application/json" ]}.

(** The underlying call alone, the instrumented call with a span that
    records, and the instrumented call with a span that does not. *)
Definition plain_call : outcome pyval :=
  bedrock_answers [] cohere_kwargs plain_env ∅.

Definition recorded_call : outcome pyval :=
  @with_instrumentation example_imports bedrock_answers recording_tracer
    [] cohere_kwargs plain_env ∅.

Definition unrecorded_call : outcome pyval :=
  @with_instrumentation example_imports bedrock_answers dropping_tracer
    [] cohere_kwargs plain_env ∅.

(* ===================================================================== *)
(** ** The monad, pointwise *)
(* ===================================================================== *)

Lemma bind_ok {A B} (m : M A) (k : A -> M B) env h a :
  result_of (m env h) = Ok a ->
  (m ≫= k) env h =
    mkOutcome (result_of (k a env (heap_of (m env h))))
              (heap_of (k a env (heap_of (m env h))))
              (trace_of (m env h) ++ trace_of (k a env (heap_of (m env h)))).
Proof.
  intros Hm. unfold mbind, M_bind, bind. cbv zeta. now rewrite Hm.
Qed.

Lemma bind_raise {A B} (m : M A) (k : A -> M B) env h e :
  result_of (m env h) = Raise e ->
  (m ≫= k) env h = mkOutcome (Raise e) (heap_of (m env h)) (trace_of (m env h)).
Proof.
  intros Hm. unfold mbind, M_bind, bind. cbv zeta. now rewrite Hm.
Qed.

(* ===================================================================== *)
(** ** Re-assembling the response stream *)
(* ===================================================================== *)

Lemma fold_accumulate_some (chunks : list bytes) (b : bytes) :
  fold_left accumulate chunks (Some b) = Some (b ++ concat chunks).
Proof.
  revert b. induction chunks as [|c chunks IH]; intros b; simpl.
  - now rewrite app_nil_r.
  - rewrite IH. now rewrite <- app_assoc.
Qed.

Lemma buffer_joined (chunks : list bytes) :
  buffer_value (fold_left accumulate chunks None) = joined chunks.
Proof.
  destruct chunks as [|c chunks]; simpl; [reflexivity|].
  now rewrite fold_accumulate_some.
Qed.

Section Properties.
Context `{Imports}.

(** C4. [_get_body] reads every chunk that is left in the response's
    streaming body, in order, into one buffer (the concatenation of the
    chunks; [None] when the stream had none left), and leaves the stream
    empty. Its result is [json.loads] of that buffer exactly when the
    accept content type is ["application/json"]; for ["application/xml"]
    and every other content type it returns [None]. *)
Theorem get_body_reassembles
    (kvs : list (string * pyval)) (id : nat) (chunks : list bytes)
    (content_type : pyval) (env : Env) (h : Heap) :
  assoc kvs "body" = Some (PStream id) ->
  h !! id = Some chunks ->
  _get_body (PDict kvs) content_type env h =
    mkOutcome
      (if py_eq_str content_type "application/json"
       then loads (joined chunks)
       else Ok PNone)
      (<[id := []]> h) [].
Proof.
  intros Hbody Hid.
  unfold _get_body, py_get. rewrite Hbody. simpl.
  unfold mbind, M_bind, bind, ret, iter_chunks. simpl.
  rewrite Hid. simpl. rewrite buffer_joined.
  destruct (py_eq_str content_type "application/json").
  - reflexivity.
  - now destruct (py_eq_str content_type "application/xml").
Qed.

(* ===================================================================== *)
(** ** The instrumented call *)
(* ===================================================================== *)

Lemma get_body_silent (response content_type : pyval) env h :
  trace_of (_get_body response content_type env h) = [].
Proof.
  unfold _get_body, py_get.
  destruct response; try reflexivity.
  unfold mbind, M_bind, bind, ret, iter_chunks. simpl.
  destruct (default PNone (assoc kvs "body")); try reflexivity.
  simpl.
  destruct (py_eq_str content_type "application/json"); [reflexivity|].
  now destruct (py_eq_str content_type "application/xml").
Qed.

Lemma load_global_modelId env h :
  load_global "modelId" env h = mkOutcome (Raise (NameError "modelId")) h [].
Proof. reflexivity. Qed.

Ltac run_call fn args kwargs env h :=
  unfold with_instrumentation, start_as_current_span, json_loads, lift;
  unfold mbind, M_bind, bind; cbv zeta;
  destruct (fn args kwargs env h) as [[response|e] h1 t1]; cbn [result_of heap_of trace_of];
  [ destruct (loads (kwargs_get kwargs "body")) as [request_body|e];
    cbn [result_of heap_of trace_of];
    [ pose proof (get_body_silent response (kwargs_get kwargs "accept") env h1) as Hsilent;
      destruct (_get_body response (kwargs_get kwargs "accept") env h1)
        as [[response_body|e] h2 t2];
      cbn [result_of heap_of trace_of] in * | ] | ].

Lemma with_instrumentation_trace (fn : Callable) (tracer : Tracer)
    (args : list pyval) (kwargs : gmap string pyval) env h :
  trace_of (with_instrumentation fn tracer args kwargs env h) =
    EvSpanStart "bedrock.completion" CLIENT ::
      trace_of (fn args kwargs env h) ++
      on_exit (mkSpan (should_record tracer "bedrock.completion" CLIENT))
              (result_of (with_instrumentation fn tracer args kwargs env h)).
Proof.
  run_call fn args kwargs env h.
  - subst t2.
    destruct (should_record tracer "bedrock.completion" CLIENT); simpl;
      now rewrite ?app_nil_r.
  - subst t2. simpl. now rewrite ?app_nil_r.
  - simpl. now rewrite ?app_nil_r.
  - reflexivity.
Qed.

Lemma count_app (p : event -> bool) (xs ys : list event) :
  count p (xs ++ ys) = count p xs + count p ys.
Proof. unfold count. now rewrite filter_app, length_app. Qed.

Lemma on_exit_closing {A} (span : Span) (r : result A) :
  exists closing,
    on_exit span r = closing ++ [EvSpanEnd]
    /\ count is_span_start closing = 0
    /\ count is_span_end closing = 0
    /\ count is_set_attribute closing = 0.
Proof.
  destruct r as [a|e]; simpl.
  - exists []. now repeat split.
  - destruct (is_recording span).
    + exists [EvRecordException e; EvSetStatusError]. now repeat split.
    + exists []. now repeat split.
Qed.

(** C2. Every call of the instrumented [invoke_model] starts one span,
    named ["bedrock.completion"] and of kind [CLIENT], runs the underlying
    call once inside it and ends the span, whether the call returns or
    raises: the trace is the start of the span, what the underlying call
    itself does, what leaving the block records, and the end of the span;
    the wrapper adds exactly one start and exactly one end. *)
Theorem one_span_around_the_call (fn : Callable) (tracer : Tracer)
    (args : list pyval) (kwargs : gmap string pyval) (env : Env) (h : Heap) :
  exists closing : list event,
    trace_of (with_instrumentation fn tracer args kwargs env h) =
      EvSpanStart "bedrock.completion" CLIENT ::
        trace_of (fn args kwargs env h) ++ closing ++ [EvSpanEnd]
    /\ count is_span_start closing = 0
    /\ count is_span_end closing = 0
    /\ count is_span_start
         (trace_of (with_instrumentation fn tracer args kwargs env h)) =
       S (count is_span_start (trace_of (fn args kwargs env h)))
    /\ count is_span_end
         (trace_of (with_instrumentation fn tracer args kwargs env h)) =
       S (count is_span_end (trace_of (fn args kwargs env h))).
Proof.
  destruct (on_exit_closing
              (mkSpan (should_record tracer "bedrock.completion" CLIENT))
              (result_of (with_instrumentation fn tracer args kwargs env h)))
    as (closing & Hexit & Hs & He & _).
  exists closing.
  rewrite with_instrumentation_trace, Hexit.
  repeat split; try assumption.
  - change (EvSpanStart "bedrock.completion" CLIENT ::
              trace_of (fn args kwargs env h) ++ closing ++ [EvSpanEnd])
      with ([EvSpanStart "bedrock.completion" CLIENT] ++
              trace_of (fn args kwargs env h) ++ closing ++ [EvSpanEnd]).
    rewrite !count_app, Hs.
    change (count is_span_start [EvSpanStart "bedrock.completion" CLIENT]) with 1.
    change (count is_span_start [EvSpanEnd]) with 0. lia.
  - change (EvSpanStart "bedrock.completion" CLIENT ::
              trace_of (fn args kwargs env h) ++ closing ++ [EvSpanEnd])
      with ([EvSpanStart "bedrock.completion" CLIENT] ++
              trace_of (fn args kwargs env h) ++ closing ++ [EvSpanEnd]).
    rewrite !count_app, He.
    change (count is_span_end [EvSpanStart "bedrock.completion" CLIENT]) with 0.
    change (count is_span_end [EvSpanEnd]) with 1. lia.
Qed.

(** The wrapper's own part of the trace never holds a [set_attribute]:
    whatever attributes a trace shows were written by the underlying
    call. *)
Lemma no_attribute_is_set (fn : Callable) (tracer : Tracer)
    (args : list pyval) (kwargs : gmap string pyval) env h :
  count is_set_attribute
    (trace_of (with_instrumentation fn tracer args kwargs env h)) =
  count is_set_attribute (trace_of (fn args kwargs env h)).
Proof.
  destruct (on_exit_closing
              (mkSpan (should_record tracer "bedrock.completion" CLIENT))
              (result_of (with_instrumentation fn tracer args kwargs env h)))
    as (closing & Hexit & _ & _ & Ha).
  rewrite with_instrumentation_trace, Hexit.
  change (EvSpanStart "bedrock.completion" CLIENT ::
            trace_of (fn args kwargs env h) ++ closing ++ [EvSpanEnd])
    with ([EvSpanStart "bedrock.completion" CLIENT] ++
            trace_of (fn args kwargs env h) ++ closing ++ [EvSpanEnd]).
  rewrite !count_app, Ha.
  change (count is_set_attribute [EvSpanStart "bedrock.completion" CLIENT]) with 0.
  change (count is_set_attribute [EvSpanEnd]) with 0. lia.
Qed.

(** With a recording span the call never returns: when the underlying
    call, the decoding of the request and the reading of the response all
    succeed, line 89 reads the unbound name [modelId]. *)
Lemma recording_call_raises (fn : Callable) (tracer : Tracer)
    (args : list pyval) (kwargs : gmap string pyval) env h :
  should_record tracer "bedrock.completion" CLIENT = true ->
  exists e, result_of (with_instrumentation fn tracer args kwargs env h) = Raise e.
Proof.
  intros Hrec. run_call fn args kwargs env h; try (eexists; reflexivity).
  rewrite Hrec. simpl. eexists; reflexivity.
Qed.

Lemma recording_call_name_error (fn : Callable) (tracer : Tracer)
    (args : list pyval) (kwargs : gmap string pyval) env h
    (response request_body response_body : pyval) :
  should_record tracer "bedrock.completion" CLIENT = true ->
  result_of (fn args kwargs env h) = Ok response ->
  loads (kwargs_get kwargs "body") = Ok request_body ->
  result_of (_get_body response (kwargs_get kwargs "accept") env
               (heap_of (fn args kwargs env h))) = Ok response_body ->
  result_of (with_instrumentation fn tracer args kwargs env h) =
    Raise (NameError "modelId").
Proof.
  intros Hrec Hfn Hreq Hresp. revert Hfn Hresp.
  unfold with_instrumentation, start_as_current_span, json_loads, lift.
  unfold mbind, M_bind, bind. cbv zeta.
  intros Hfn Hresp. rewrite Hfn. cbn [result_of heap_of trace_of].
  rewrite Hreq. cbn [result_of heap_of trace_of].
  rewrite Hresp. cbn [result_of heap_of trace_of].
  rewrite Hrec. reflexivity.
Qed.

Lemma get_body_ok_drains (response content_type v : pyval) env h :
  result_of (_get_body response content_type env h) = Ok v ->
  unread response (heap_of (_get_body response content_type env h)) = Some [].
Proof.
  unfold _get_body, py_get, unread.
  destruct response; try discriminate.
  unfold mbind, M_bind, bind, ret. cbn [result_of heap_of trace_of].
  destruct (assoc kvs "body") as [[]|]; try discriminate.
  cbn [default iter_chunks result_of heap_of trace_of].
  intros _.
  destruct (py_eq_str content_type "application/json");
    [|destruct (py_eq_str content_type "application/xml")];
    simpl; now rewrite lookup_insert_eq.
Qed.

(** When the instrumented call returns, it returns the object the
    underlying call returned, the span was not recording, and the body of
    that response has been read to its end. *)
Lemma returned_response_is_drained (fn : Callable) (tracer : Tracer)
    (args : list pyval) (kwargs : gmap string pyval) env h (r : pyval) :
  result_of (with_instrumentation fn tracer args kwargs env h) = Ok r ->
  result_of (fn args kwargs env h) = Ok r
  /\ should_record tracer "bedrock.completion" CLIENT = false
  /\ unread r (heap_of (with_instrumentation fn tracer args kwargs env h)) = Some [].
Proof.
  unfold with_instrumentation, start_as_current_span, json_loads, lift.
  unfold mbind, M_bind, bind. cbv zeta.
  destruct (fn args kwargs env h) as [[response|e] h1 t1];
    cbn [result_of heap_of trace_of]; [|discriminate].
  destruct (loads (kwargs_get kwargs "body")) as [request_body|e];
    cbn [result_of heap_of trace_of]; [|discriminate].
  pose proof (get_body_ok_drains response (kwargs_get kwargs "accept")) as Hdrain.
  specialize (Hdrain) with (env := env) (h := h1).
  destruct (_get_body response (kwargs_get kwargs "accept") env h1)
    as [[response_body|e] h2 t2];
    cbn [result_of heap_of trace_of] in *; [|discriminate].
  destruct (should_record tracer "bedrock.completion" CLIENT);
    cbn; [discriminate|].
  intros [= <-]. repeat split. now apply (Hdrain response_body).
Qed.

(** C5. When the underlying client call raises, the instrumented call
    raises that very exception: the wrapper neither replaces nor wraps it
    and raises nothing of its own; the heap is as the client left it. *)
Theorem client_error_passes_through (fn : Callable) (tracer : Tracer)
    (args : list pyval) (kwargs : gmap string pyval) (env : Env) (h : Heap)
    (e : exn) :
  result_of (fn args kwargs env h) = Raise e ->
  result_of (with_instrumentation fn tracer args kwargs env h) = Raise e
  /\ heap_of (with_instrumentation fn tracer args kwargs env h) =
     heap_of (fn args kwargs env h).
Proof.
  intros Hfn.
  unfold with_instrumentation, start_as_current_span.
  cbv zeta. cbn [result_of heap_of].
  rewrite (bind_raise _ _ env h e Hfn). now split.
Qed.

(* ===================================================================== *)
(** ** The gate on prompt and completion contents *)
(* ===================================================================== *)

(** C8, as the code has it. [should_send_prompts()] is true exactly when
    [TRACELOOP_TRACE_CONTENT] is unset, is the empty string or equals
    ["true"] up to case, or when the context value
    [override_enable_content_tracing] is true; with no variable and no
    override the gate is open. *)
Theorem content_gate_open_iff (env : Env) (h : Heap) :
  holds (should_send_prompts env h) = true <->
    environ env !! "TRACELOOP_TRACE_CONTENT" = None
    \/ environ env !! "TRACELOOP_TRACE_CONTENT" = Some ""
    \/ (exists s, environ env !! "TRACELOOP_TRACE_CONTENT" = Some s
                  /\ lower s = "true")
    \/ truthy (default PNone
                 (context env !! "override_enable_content_tracing")) = true.
Proof.
  unfold holds, should_send_prompts, getenv, get_value.
  unfold mbind, M_bind, bind. cbv zeta. cbn [result_of heap_of trace_of].
  destruct (environ env !! "TRACELOOP_TRACE_CONTENT") as [s|] eqn:Hvar.
  - destruct (String.eqb s "") eqn:Hempty.
    + apply String.eqb_eq in Hempty. subst s. simpl. split; auto.
    + apply String.eqb_neq in Hempty.
      destruct (String.eqb (lower s) "true") eqn:Hlow.
      * apply String.eqb_eq in Hlow. simpl. split; eauto 6.
      * apply String.eqb_neq in Hlow. cbn [result_of]. split.
        -- auto.
        -- intros [Hn|[He|[(s' & Hs' & Hl)|Ho]]]; try congruence.
  - simpl. split; auto.
Qed.

(* ===================================================================== *)
(** ** Wrapping the client factory *)
(* ===================================================================== *)

Lemma bind_get_value {A} (key : string) (k : pyval -> M A) env h :
  (get_value key ≫= k) env h = k (default PNone (context env !! key)) env h.
Proof.
  unfold mbind, M_bind, bind, get_value. cbv zeta.
  cbn [result_of heap_of trace_of].
  destruct (k (default PNone (context env !! key)) env h) as [[a|e] h' t'];
    reflexivity.
Qed.

(** C9. While the suppress-instrumentation key of the context is set,
    the wrapper around [create_client] is the wrapped call and nothing
    else: the same result (the client as the factory built it, with its
    own [invoke_model]), the same effects, and no span. *)
Theorem suppressed_creation_is_the_wrapped_call
    (tracer : Tracer) (to_wrap : gmap string string) (wrapped : Factory)
    (instance : pyval) (args : list pyval) (kwargs : gmap string pyval)
    (env : Env) (h : Heap) :
  truthy (default PNone (context env !! _SUPPRESS_INSTRUMENTATION_KEY)) = true ->
  _wrap tracer to_wrap wrapped instance args kwargs env h =
    wrapped args kwargs env h.
Proof.
  intros Hsup. unfold _wrap, _with_tracer_wrapper, _wrap_func.
  rewrite bind_get_value, Hsup. reflexivity.
Qed.

(** C10. A [create_client] call whose [service_name] keyword argument is
    not ["bedrock-runtime"] goes through unchanged: the wrapper's outcome
    is the wrapped call's, so the client keeps its own [invoke_model]. *)
Theorem other_services_are_untouched
    (tracer : Tracer) (to_wrap : gmap string string) (wrapped : Factory)
    (instance : pyval) (args : list pyval) (kwargs : gmap string pyval)
    (env : Env) (h : Heap) :
  py_eq_str (kwargs_get kwargs "service_name") "bedrock-runtime" = false ->
  _wrap tracer to_wrap wrapped instance args kwargs env h =
    wrapped args kwargs env h.
Proof.
  intros Hsvc. unfold _wrap, _with_tracer_wrapper, _wrap_func.
  rewrite bind_get_value, Hsvc.
  now destruct (truthy _).
Qed.

(** The other side of C10: without suppression, a client created for
    ["bedrock-runtime"] comes back with [invoke_model] replaced by the
    instrumented closure over the original method. *)
Lemma runtime_client_is_instrumented
    (tracer : Tracer) (to_wrap : gmap string string) (wrapped : Factory)
    (instance : pyval) (args : list pyval) (kwargs : gmap string pyval)
    (env : Env) (h : Heap) (client : Client) :
  truthy (default PNone (context env !! _SUPPRESS_INSTRUMENTATION_KEY)) = false ->
  py_eq_str (kwargs_get kwargs "service_name") "bedrock-runtime" = true ->
  result_of (wrapped args kwargs env h) = Ok client ->
  result_of (_wrap tracer to_wrap wrapped instance args kwargs env h) =
    Ok (set_invoke_model client
          (_instrumented_model_invoke (invoke_model client) tracer)).
Proof.
  intros Hsup Hsvc Hc. unfold _wrap, _with_tracer_wrapper, _wrap_func.
  rewrite bind_get_value, Hsup, Hsvc.
  now rewrite (bind_ok _ _ env h client Hc).
Qed.

(* ===================================================================== *)
(** ** The per-vendor field names *)
(* ===================================================================== *)

Lemma set_span_attribute_outcome (span : Span) (name : string)
    (value : pyval) env h :
  _set_span_attribute span name value env h =
    mkOutcome (Ok tt) h (set_events span name value).
Proof.
  unfold _set_span_attribute, set_attribute, set_events.
  destruct (is_none value); [reflexivity|].
  destruct (py_eq_str value ""); [reflexivity|].
  now destruct (is_recording span).
Qed.

Ltac run_table :=
  unfold mbind, M_bind, bind, py_get, ret; cbv zeta;
  rewrite ?set_span_attribute_outcome;
  cbn [result_of heap_of trace_of];
  rewrite ?set_span_attribute_outcome;
  cbn [result_of heap_of trace_of];
  rewrite ?set_span_attribute_outcome;
  cbn [result_of heap_of trace_of];
  rewrite ?set_span_attribute_outcome;
  cbn [result_of heap_of trace_of];
  now rewrite ?app_nil_l, ?app_nil_r.

(** Called on a decoded request, each helper writes the request type
    and the three sampling parameters from its vendor's field names. *)
Lemma cohere_table (span : Span) (kvs : list (string * pyval)) env h :
  trace_of (_set_cohere_span_attributes span (PDict kvs) env h) =
    set_events span LLM_REQUEST_TYPE (PStr COMPLETION_value) ++
    set_events span LLM_TOP_P (default PNone (assoc kvs "p")) ++
    set_events span LLM_TEMPERATURE (default PNone (assoc kvs "temperature")) ++
    set_events span LLM_REQUEST_MAX_TOKENS (default PNone (assoc kvs "max_tokens")).
Proof. unfold _set_cohere_span_attributes. run_table. Qed.

Lemma anthropic_table (span : Span) (kvs : list (string * pyval)) env h :
  trace_of (_set_anthropic_span_attributes span (PDict kvs) env h) =
    set_events span LLM_REQUEST_TYPE (PStr COMPLETION_value) ++
    set_events span LLM_TOP_P (default PNone (assoc kvs "top_p")) ++
    set_events span LLM_TEMPERATURE (default PNone (assoc kvs "temperature")) ++
    set_events span LLM_REQUEST_MAX_TOKENS
      (default PNone (assoc kvs "max_tokens_to_sample")).
Proof. unfold _set_anthropic_span_attributes. run_table. Qed.

Lemma ai21_table (span : Span) (kvs : list (string * pyval)) env h :
  trace_of (_set_ai21_span_attributes span (PDict kvs) env h) =
    set_events span LLM_REQUEST_TYPE (PStr COMPLETION_value) ++
    set_events span LLM_TOP_P (default PNone (assoc kvs "topP")) ++
    set_events span LLM_TEMPERATURE (default PNone (assoc kvs "temperature")) ++
    set_events span LLM_REQUEST_MAX_TOKENS (default PNone (assoc kvs "maxTokens")).
Proof. unfold _set_ai21_span_attributes. run_table. Qed.

Lemma llama_table (span : Span) (kvs : list (string * pyval)) env h :
  trace_of (_set_llama_span_attributes span (PDict kvs) env h) =
    set_events span LLM_REQUEST_TYPE (PStr COMPLETION_value) ++
    set_events span LLM_TOP_P (default PNone (assoc kvs "top_p")) ++
    set_events span LLM_TEMPERATURE (default PNone (assoc kvs "temperature")) ++
    set_events span LLM_REQUEST_MAX_TOKENS (default PNone (assoc kvs "max_gen_len")).
Proof. unfold _set_llama_span_attributes. run_table. Qed.

End Properties.

(* ===================================================================== *)
(** ** The properties at work on a cohere request *)
(* ===================================================================== *)

(** C4 on the reply of the example: two chunks in the stream, one JSON
    document out, the stream empty afterwards. *)
Lemma get_body_reassembles_reply :
  assoc [ ("body", PStream 0); ("contentType", PStr "application/json") ] "body"
    = Some (PStream 0)
  /\ ({[ 0%nat := reply_chunks ]} : Heap) !! 0%nat = Some reply_chunks
  /\ loads (H := example_imports) (joined reply_chunks) = Ok cohere_reply
  /\ @_get_body example_imports reply_response (PStr "application/json")
       plain_env {[ 0%nat := reply_chunks ]} =
     mkOutcome
       (if py_eq_str (PStr "application/json") "application/json"
        then loads (H := example_imports) (joined reply_chunks)
        else Ok PNone)
       (<[0%nat := []]> {[ 0%nat := reply_chunks ]}) [].
Proof.
  split; [reflexivity|]. split; [vm_compute; reflexivity|].
  split; [vm_compute; reflexivity|].
  apply (@get_body_reassembles example_imports
           [ ("body", PStream 0); ("contentType", PStr "application/json") ]
           0%nat reply_chunks (PStr "application/json") plain_env
           {[ 0%nat := reply_chunks ]});
    [reflexivity | vm_compute; reflexivity].
Defined.

(** C5 on a throttled client. *)
Lemma throttling_passes_through :
  result_of (bedrock_throttles [] cohere_kwargs plain_env ∅) = Raise throttled
  /\ result_of (@with_instrumentation example_imports bedrock_throttles
                  recording_tracer [] cohere_kwargs plain_env ∅) = Raise throttled
  /\ heap_of (@with_instrumentation example_imports bedrock_throttles
                recording_tracer [] cohere_kwargs plain_env ∅) =
     heap_of (bedrock_throttles [] cohere_kwargs plain_env ∅).
Proof.
  split; [reflexivity|].
  apply (@client_error_passes_through example_imports bedrock_throttles
           recording_tracer [] cohere_kwargs plain_env ∅ throttled).
  reflexivity.
Defined.

(** C9 on a client for ["bedrock-runtime"] created under suppression. *)
Lemma suppressed_runtime_client_is_plain :
  truthy (default PNone (context suppressed_env !! "suppress_instrumentation")) = true
  /\ @_wrap example_imports recording_tracer ∅ create_client PNone []
       runtime_kwargs suppressed_env ∅ =
     create_client [] runtime_kwargs suppressed_env ∅.
Proof.
  split; [reflexivity|].
  apply (@suppressed_creation_is_the_wrapped_call example_imports
           recording_tracer ∅ create_client PNone [] runtime_kwargs
           suppressed_env ∅).
  reflexivity.
Defined.

(** C10 on a client for ["s3"]. *)
Lemma s3_client_is_plain :
  py_eq_str (kwargs_get s3_kwargs "service_name") "bedrock-runtime" = false
  /\ @_wrap example_imports recording_tracer ∅ create_client PNone []
       s3_kwargs plain_env ∅ =
     create_client [] s3_kwargs plain_env ∅.
Proof.
  split; [reflexivity|].
  apply (@other_services_are_untouched example_imports
           recording_tracer ∅ create_client PNone [] s3_kwargs plain_env ∅).
  reflexivity.
Defined.

(** C1 at work. The request names the model ["cohere.command-text-v14"]
    and the span records, yet the call ends in [NameError: modelId] and
    the span carries neither a vendor nor a model attribute. *)
Theorem recorded_call_has_no_vendor_or_model :
  kwargs_get cohere_kwargs "modelId" = PStr "cohere.command-text-v14"
  /\ result_of recorded_call = Raise (NameError "modelId")
  /\ assoc (attributes (trace_of recorded_call)) "llm.vendor" = None
  /\ assoc (attributes (trace_of recorded_call)) "llm.request.model" = None.
Proof. vm_compute. repeat split. Qed.

(** C3 at work. Content tracing is on and the span records; the request
    has a prompt and the response one generation, yet the span carries
    neither a prompt nor a completion attribute. *)
Theorem recorded_call_has_no_prompt_or_completion :
  holds (should_send_prompts plain_env ∅) = true
  /\ assoc (attributes (trace_of recorded_call)) "llm.prompts.0.user" = None
  /\ assoc (attributes (trace_of recorded_call)) "llm.completions.0.content" = None
  /\ attributes (trace_of recorded_call) = [].
Proof. vm_compute. repeat split. Qed.

(** C6 at work. The request of a cohere model carries [p], [temperature]
    and [max_tokens] and the span records, yet the span carries no
    request-type, top-p, temperature or max-token attribute: the trace is
    the start of the span, the recorded [NameError] and the end. *)
Theorem recorded_cohere_call_has_no_request_attributes :
  loads (H := example_imports) (kwargs_get cohere_kwargs "body") = Ok cohere_request
  /\ assoc (attributes (trace_of recorded_call)) "llm.request.type" = None
  /\ assoc (attributes (trace_of recorded_call)) "llm.top_p" = None
  /\ assoc (attributes (trace_of recorded_call)) "llm.temperature" = None
  /\ assoc (attributes (trace_of recorded_call)) "llm.request.max_tokens" = None
  /\ trace_of recorded_call =
       [ EvSpanStart "bedrock.completion" CLIENT;
         EvRecordException (NameError "modelId");
         EvSetStatusError;
         EvSpanEnd ].
Proof. vm_compute. repeat split. Qed.

(** C7 at work. The instrumented call returns the object the client
    returned, but the caller of the plain call can still read the whole
    reply from its body, and the caller of the instrumented call finds
    the body already read to its end. *)
Theorem returned_body_is_already_read :
  result_of plain_call = Ok reply_response
  /\ result_of unrecorded_call = Ok reply_response
  /\ unread reply_response (heap_of plain_call) =
       Some (list_byte_of_string (json_text cohere_reply))
  /\ unread reply_response (heap_of unrecorded_call) = Some [].
Proof. vm_compute. repeat split. Qed.

(** C8 as worded fails on an empty variable: [TRACELOOP_TRACE_CONTENT]
    is set, and not to ["true"], and there is no override, so the wording
    has content tracing off; [should_send_prompts()] is true. *)
Lemma empty_flag_opens_the_gate :
  environ empty_flag_env !! "TRACELOOP_TRACE_CONTENT" = Some ""
  /\ content_tracing_enabled_spec empty_flag_env = false
  /\ holds (should_send_prompts empty_flag_env ∅) = true
  /\ holds (should_send_prompts empty_flag_env ∅) <>
     content_tracing_enabled_spec empty_flag_env.
Proof. vm_compute. repeat split. discriminate. Qed.

(* ===================================================================== *)
(** ** Writing one attribute *)
(* ===================================================================== *)

Lemma is_none_true (v : pyval) : is_none v = true <-> v = PNone.
Proof. destruct v; simpl; split; congruence. Qed.

Lemma py_eq_str_true (v : pyval) (s : string) :
  py_eq_str v s = true <-> v = PStr s.
Proof.
  destruct v; simpl; try (split; congruence).
  rewrite String.eqb_eq. split; congruence.
Qed.

Lemma set_events_none (span : Span) (name : string) :
  set_events span name PNone = [].
Proof. reflexivity. Qed.

(** X1. [_set_span_attribute] never raises and touches no stream. On a
    recording span it writes the attribute for every value except [None]
    and the empty string (so [0], [False] and an empty list are written);
    for [None], for the empty string and on a span that does not record
    it writes nothing. *)
Theorem set_span_attribute_drops_only_none_and_empty
    (span : Span) (name : string) (value : pyval) (env : Env) (h : Heap) :
  result_of (_set_span_attribute span name value env h) = Ok tt
  /\ heap_of (_set_span_attribute span name value env h) = h
  /\ (trace_of (_set_span_attribute span name value env h) =
        [EvSetAttribute name value]
      <-> value <> PNone /\ value <> PStr "" /\ is_recording span = true)
  /\ (trace_of (_set_span_attribute span name value env h) = []
      <-> value = PNone \/ value = PStr "" \/ is_recording span = false).
Proof.
  rewrite set_span_attribute_outcome. cbn [result_of heap_of trace_of].
  split; [reflexivity|]. split; [reflexivity|].
  unfold set_events.
  destruct (is_none value) eqn:Hn.
  - apply is_none_true in Hn. subst value. simpl. split; split; intros Hx.
    + discriminate.
    + now destruct Hx as [Hx _].
    + now left.
    + reflexivity.
  - assert (value <> PNone) as Hnn
      by (intros Hx; apply is_none_true in Hx; congruence).
    destruct (py_eq_str value "") eqn:He.
    + apply py_eq_str_true in He. subst value. simpl. split; split; intros Hx.
      * discriminate.
      * now destruct Hx as (_ & Hx & _).
      * right; now left.
      * reflexivity.
    + assert (value <> PStr "") as Hne
        by (intros Hx; apply py_eq_str_true in Hx; congruence).
      destruct (is_recording span); simpl; split; split; intros Hx.
      * now repeat split.
      * reflexivity.
      * discriminate.
      * destruct Hx as [Hx|[Hx|Hx]]; congruence.
      * discriminate.
      * now destruct Hx as (_ & _ & Hx).
      * right; now right.
      * reflexivity.
Qed.

Section Further.
Context `{Imports}.

(* ===================================================================== *)
(** ** The vendor helpers *)
(* ===================================================================== *)

Ltac run_helper :=
  cbn [vendor_helper top_p_field temperature_field max_tokens_field];
  unfold _set_cohere_span_attributes, _set_anthropic_span_attributes,
    _set_ai21_span_attributes, _set_llama_span_attributes;
  unfold mbind, M_bind, bind, py_get, ret; cbv zeta;
  rewrite ?set_span_attribute_outcome; cbn [result_of heap_of trace_of];
  rewrite ?set_span_attribute_outcome; cbn [result_of heap_of trace_of];
  rewrite ?set_span_attribute_outcome; cbn [result_of heap_of trace_of];
  rewrite ?set_span_attribute_outcome; cbn [result_of heap_of trace_of].

(** X2. Called on a decoded request object, the helper of each vendor
    returns without raising, touches no stream, and writes, in this
    order, the completion request type and the top-p, temperature and
    max-token attributes read from that vendor's field names (cohere
    [p]/[temperature]/[max_tokens], anthropic
    [top_p]/[temperature]/[max_tokens_to_sample], ai21
    [topP]/[temperature]/[maxTokens], meta
    [top_p]/[temperature]/[max_gen_len]), each under the rule of X1. *)
Theorem vendor_helper_reads_its_fields
    (v : vendor) (span : Span) (kvs : list (string * pyval))
    (env : Env) (h : Heap) :
  vendor_helper v span (PDict kvs) env h =
    mkOutcome (Ok tt) h
      (set_events span LLM_REQUEST_TYPE (PStr COMPLETION_value) ++
       set_events span LLM_TOP_P (default PNone (assoc kvs (top_p_field v))) ++
       set_events span LLM_TEMPERATURE
         (default PNone (assoc kvs (temperature_field v))) ++
       set_events span LLM_REQUEST_MAX_TOKENS
         (default PNone (assoc kvs (max_tokens_field v)))).
Proof.
  destruct v; run_helper; unfold temperature_field;
    now rewrite ?app_nil_l, ?app_nil_r.
Qed.

(** X3. Called on a decoded request that is not an object (a JSON array,
    string or number), every vendor helper first writes the request type
    and then raises [AttributeError] at the first [request_body.get]:
    the span is left with the request type alone. *)
Theorem vendor_helper_on_a_non_object
    (v : vendor) (span : Span) (request_body : pyval) (env : Env) (h : Heap) :
  (forall kvs, request_body <> PDict kvs) ->
  vendor_helper v span request_body env h =
    mkOutcome (Raise (AttributeError "get")) h
      (set_events span LLM_REQUEST_TYPE (PStr COMPLETION_value)).
Proof.
  intros Hnd.
  assert (forall k env' h', py_get request_body k env' h' =
            mkOutcome (Raise (AttributeError "get")) h' []) as Hget.
  { intros k env' h'. destruct request_body; try reflexivity.
    now destruct (Hnd kvs). }
  destruct v; cbn [vendor_helper];
    [ unfold _set_cohere_span_attributes
    | unfold _set_anthropic_span_attributes
    | unfold _set_ai21_span_attributes
    | unfold _set_llama_span_attributes ];
    unfold mbind, M_bind, bind; cbv zeta;
    rewrite set_span_attribute_outcome; cbn [result_of heap_of trace_of];
    rewrite Hget; cbn [result_of heap_of trace_of];
    now rewrite ?app_nil_r.
Qed.

(** X4. A request object that has none of the vendor's three fields
    leaves the span with the request type alone: a missing field writes
    no attribute and raises nothing. *)
Theorem vendor_helper_without_fields
    (v : vendor) (span : Span) (kvs : list (string * pyval))
    (env : Env) (h : Heap) :
  assoc kvs (top_p_field v) = None ->
  assoc kvs (temperature_field v) = None ->
  assoc kvs (max_tokens_field v) = None ->
  vendor_helper v span (PDict kvs) env h =
    mkOutcome (Ok tt) h
      (set_events span LLM_REQUEST_TYPE (PStr COMPLETION_value)).
Proof.
  intros Hp Ht Hm. revert Hp Ht Hm.
  unfold temperature_field.
  destruct v; cbn [top_p_field max_tokens_field];
    intros Hp Ht Hm; run_helper; unfold temperature_field; rewrite Hp, Ht, Hm;
    cbn [default from_option id]; rewrite !set_events_none;
    now rewrite ?app_nil_l, ?app_nil_r.
Qed.

(* ===================================================================== *)
(** ** More on the response stream *)
(* ===================================================================== *)

Lemma get_body_on_stream
    (kvs : list (string * pyval)) (id : nat) (chunks : list bytes)
    (content_type : pyval) env (h : Heap) :
  assoc kvs "body" = Some (PStream id) ->
  h !! id = Some chunks ->
  _get_body (PDict kvs) content_type env h =
    mkOutcome
      (if py_eq_str content_type "application/json"
       then loads (joined chunks)
       else Ok PNone)
      (<[id := []]> h) [].
Proof.
  intros Hbody Hid.
  unfold _get_body, py_get. rewrite Hbody. simpl.
  unfold mbind, M_bind, bind, ret, iter_chunks. simpl.
  rewrite Hid. simpl. rewrite buffer_joined.
  destruct (py_eq_str content_type "application/json"); [reflexivity|].
  now destruct (py_eq_str content_type "application/xml").
Qed.

(** X5. A response that holds no streaming body under ["body"] (the key
    is missing, or its value is anything but a stream) makes [_get_body]
    raise [AttributeError], whatever the content type; no stream is
    touched. *)
Theorem get_body_without_a_stream
    (kvs : list (string * pyval)) (content_type : pyval) (env : Env) (h : Heap) :
  (forall id, assoc kvs "body" <> Some (PStream id)) ->
  _get_body (PDict kvs) content_type env h =
    mkOutcome (Raise (AttributeError "iter_chunks")) h [].
Proof.
  intros Hns. unfold _get_body, py_get.
  unfold mbind, M_bind, bind, ret. cbv zeta. cbn [result_of heap_of trace_of].
  destruct (assoc kvs "body") as [body|]; [|reflexivity].
  destruct body; try reflexivity.
  now destruct (Hns id).
Qed.

(** X6. What [_get_body] returns depends on the bytes of the body and
    not on how the stream cuts them into chunks: two streams that are
    not empty and whose chunks concatenate to the same bytes give the
    same result. *)
Theorem get_body_ignores_chunk_boundaries
    (kvs : list (string * pyval)) (id : nat) (chunks1 chunks2 : list bytes)
    (content_type : pyval) (env : Env) (h1 h2 : Heap) :
  assoc kvs "body" = Some (PStream id) ->
  h1 !! id = Some chunks1 ->
  h2 !! id = Some chunks2 ->
  chunks1 <> [] ->
  chunks2 <> [] ->
  concat chunks1 = concat chunks2 ->
  result_of (_get_body (PDict kvs) content_type env h1) =
  result_of (_get_body (PDict kvs) content_type env h2).
Proof.
  intros Hbody H1 H2 Hn1 Hn2 Hcat.
  rewrite (get_body_on_stream kvs id chunks1 content_type env h1 Hbody H1).
  rewrite (get_body_on_stream kvs id chunks2 content_type env h2 Hbody H2).
  cbn [result_of].
  destruct chunks1 as [|c1 cs1]; [congruence|].
  destruct chunks2 as [|c2 cs2]; [congruence|].
  unfold joined. now rewrite Hcat.
Qed.

(** X7. The body can be read once. After one [_get_body] on a response,
    whatever its content type, a second [_get_body] on the same response
    with ["application/json"] finds no chunk, hands [None] to
    [json.loads] and raises [TypeError]. *)
Theorem get_body_reads_once
    (kvs : list (string * pyval)) (id : nat) (chunks : list bytes)
    (content_type : pyval) (env : Env) (h : Heap) :
  assoc kvs "body" = Some (PStream id) ->
  h !! id = Some chunks ->
  _get_body (PDict kvs) (PStr "application/json") env
    (heap_of (_get_body (PDict kvs) content_type env h)) =
    mkOutcome
      (Raise (TypeError "the JSON object must be str, bytes or bytearray"))
      (<[id := []]> h) [].
Proof.
  intros Hbody Hid.
  rewrite (get_body_on_stream kvs id chunks content_type env h Hbody Hid).
  cbn [heap_of].
  rewrite (get_body_on_stream kvs id [] (PStr "application/json") env
             (<[id := []]> h) Hbody (lookup_insert_eq h id [])).
  now rewrite insert_insert_eq.
Qed.

Lemma get_body_frame
    (response content_type : pyval) env (h : Heap) (other : nat) :
  body_stream response <> Some other ->
  heap_of (_get_body response content_type env h) !! other = h !! other.
Proof.
  intros Hother. unfold _get_body, py_get, body_stream in *.
  destruct response; try reflexivity.
  unfold mbind, M_bind, bind, ret. cbv zeta. cbn [result_of heap_of trace_of].
  destruct (assoc kvs "body") as [body|]; [|reflexivity].
  destruct body; try reflexivity.
  cbn [default from_option iter_chunks result_of heap_of trace_of].
  assert (id <> other) as Hne by congruence.
  destruct (py_eq_str content_type "application/json");
    [|destruct (py_eq_str content_type "application/xml")];
    simpl; now rewrite lookup_insert_ne.
Qed.

(** X8. [_get_body] changes no stream but the one the response holds
    under ["body"], whether it returns or raises. *)
Theorem get_body_touches_only_its_stream
    (response content_type : pyval) (env : Env) (h : Heap) (other : nat) :
  body_stream response <> Some other ->
  heap_of (_get_body response content_type env h) !! other = h !! other.
Proof.
  intros Hother. destruct response; try reflexivity.
  unfold body_stream in Hother. unfold _get_body, py_get.
  unfold mbind, M_bind, bind, ret. cbv zeta. cbn [result_of heap_of trace_of].
  destruct (assoc kvs "body") as [[]|]; try reflexivity.
  cbn [default from_option iter_chunks result_of heap_of trace_of].
  assert (id <> other) as Hne by congruence.
  destruct (py_eq_str content_type "application/json");
    [|destruct (py_eq_str content_type "application/xml")];
    simpl; now rewrite lookup_insert_ne.
Qed.

(* ===================================================================== *)
(** ** More on the instrumented call *)
(* ===================================================================== *)

Lemma get_body_trace (response content_type : pyval) env h :
  trace_of (_get_body response content_type env h) = [].
Proof.
  unfold _get_body, py_get.
  destruct response; try reflexivity.
  unfold mbind, M_bind, bind, ret, iter_chunks. simpl.
  destruct (default PNone (assoc kvs "body")); try reflexivity.
  simpl.
  destruct (py_eq_str content_type "application/json"); [reflexivity|].
  now destruct (py_eq_str content_type "application/xml").
Qed.


(** The instrumented call, step by step. *)
Ltac step_call fn tracer args kwargs env h :=
  unfold with_instrumentation, start_as_current_span, json_loads, lift;
  unfold mbind, M_bind, bind; cbv zeta;
  destruct (fn args kwargs env h) as [[response0|e0] h1 t1];
  cbn [result_of heap_of trace_of];
  [ destruct (loads (kwargs_get kwargs "body")) as [request_body0|e0];
    cbn [result_of heap_of trace_of];
    [ pose proof (get_body_trace response0 (kwargs_get kwargs "accept") env h1)
        as Hsilent;
      destruct (_get_body response0 (kwargs_get kwargs "accept") env h1)
        as [[response_body0|e0] h2 t2] eqn:Hgb;
      cbn [result_of heap_of trace_of] in *;
      [ destruct (should_record tracer "bedrock.completion" CLIENT) eqn:Hrec;
        cbn [is_recording load_global bool_decide decide_rel result_of
             heap_of trace_of truthy ret raise]
      | ]
    | ]
  | ].

(** X9. Besides what the underlying call does, the instrumented call
    changes no stream but the body of the response that call returned. *)
Theorem instrumented_call_touches_only_the_body
    (fn : Callable) (tracer : Tracer) (args : list pyval)
    (kwargs : gmap string pyval) (env : Env) (h : Heap)
    (response : pyval) (other : nat) :
  result_of (fn args kwargs env h) = Ok response ->
  body_stream response <> Some other ->
  heap_of (with_instrumentation fn tracer args kwargs env h) !! other =
  heap_of (fn args kwargs env h) !! other.
Proof.
  intros Hfn Hother. revert Hfn.
  step_call fn tracer args kwargs env h; intros [= ->]; try reflexivity.
  all: change h2 with (heap_of (mkOutcome (A := pyval) (Ok response_body0) h2 t2))
         || change h2 with (heap_of (mkOutcome (A := pyval) (Raise e0) h2 t2)).
  all: rewrite <- Hgb; now apply get_body_frame.
Qed.

(** X10. A request whose [body] keyword argument [json.loads] cannot
    decode (absent, not text, not JSON) makes the instrumented call raise
    the decoder's exception although the underlying call has returned a
    response; the response's body has not been read at that point. *)
Theorem undecodable_request_fails_the_call
    (fn : Callable) (tracer : Tracer) (args : list pyval)
    (kwargs : gmap string pyval) (env : Env) (h : Heap)
    (response : pyval) (e : exn) :
  result_of (fn args kwargs env h) = Ok response ->
  loads (kwargs_get kwargs "body") = Raise e ->
  result_of (with_instrumentation fn tracer args kwargs env h) = Raise e
  /\ heap_of (with_instrumentation fn tracer args kwargs env h) =
     heap_of (fn args kwargs env h).
Proof.
  intros Hfn Hreq.
  unfold with_instrumentation, start_as_current_span, json_loads, lift.
  unfold mbind, M_bind, bind. cbv zeta.
  rewrite Hfn. cbn [result_of heap_of trace_of].
  rewrite Hreq. cbn [result_of heap_of trace_of]. now split.
Qed.

(** X11. The instrumented call returns [r] exactly when the underlying
    call returned [r], the request body decodes, reading the response
    body succeeds, and the span does not record. *)
Theorem instrumented_call_returns_iff
    (fn : Callable) (tracer : Tracer) (args : list pyval)
    (kwargs : gmap string pyval) (env : Env) (h : Heap) (r : pyval) :
  result_of (with_instrumentation fn tracer args kwargs env h) = Ok r <->
    result_of (fn args kwargs env h) = Ok r
    /\ (exists request_body, loads (kwargs_get kwargs "body") = Ok request_body)
    /\ (exists response_body,
          result_of (_get_body r (kwargs_get kwargs "accept") env
                       (heap_of (fn args kwargs env h))) = Ok response_body)
    /\ should_record tracer "bedrock.completion" CLIENT = false.
Proof.
  step_call fn tracer args kwargs env h;
    (split; [ intros Hx | intros (Hfn & (rb & Hrb) & (v & Hv) & Hr) ]).
  - discriminate Hx.
  - discriminate Hr.
  - injection Hx as <-. rewrite Hgb. cbn [result_of]. eauto 6.
  - now injection Hfn as <-.
  - discriminate Hx.
  - injection Hfn as <-. rewrite Hgb in Hv. discriminate Hv.
  - discriminate Hx.
  - discriminate Hrb.
  - discriminate Hx.
  - discriminate Hfn.
Qed.

(** X12. With a recording span, a call whose underlying call, request
    decoding and response reading all succeed ends in
    [NameError: modelId]: the caller gets the exception instead of the
    response, the response's body has been read to its end, and the
    span holds the recorded exception and no attribute. *)
Theorem recording_call_fails_on_modelId
    (fn : Callable) (tracer : Tracer) (args : list pyval)
    (kwargs : gmap string pyval) (env : Env) (h : Heap)
    (response request_body response_body : pyval) :
  should_record tracer "bedrock.completion" CLIENT = true ->
  result_of (fn args kwargs env h) = Ok response ->
  loads (kwargs_get kwargs "body") = Ok request_body ->
  result_of (_get_body response (kwargs_get kwargs "accept") env
               (heap_of (fn args kwargs env h))) = Ok response_body ->
  result_of (with_instrumentation fn tracer args kwargs env h) =
    Raise (NameError "modelId")
  /\ unread response (heap_of (with_instrumentation fn tracer args kwargs env h)) =
     Some []
  /\ trace_of (with_instrumentation fn tracer args kwargs env h) =
     EvSpanStart "bedrock.completion" CLIENT ::
       trace_of (fn args kwargs env h) ++
       [EvRecordException (NameError "modelId"); EvSetStatusError; EvSpanEnd].
Proof.
  intros Hrec Hfn Hreq Hresp.
  pose proof (get_body_ok_drains response (kwargs_get kwargs "accept")
                response_body env (heap_of (fn args kwargs env h)) Hresp) as Hdrain.
  pose proof (with_instrumentation_trace fn tracer args kwargs env h) as Htrace.
  pose proof (recording_call_name_error fn tracer args kwargs env h
                response request_body response_body Hrec Hfn Hreq Hresp) as Hres.
  split; [exact Hres|]. split.
  - revert Hdrain Hresp.
    unfold with_instrumentation, start_as_current_span, json_loads, lift.
    unfold mbind, M_bind, bind. cbv zeta.
    rewrite Hfn. cbn [result_of heap_of trace_of].
    rewrite Hreq. cbn [result_of heap_of trace_of].
    intros Hdrain Hresp. rewrite Hresp. cbn [result_of heap_of trace_of].
    rewrite Hrec. exact Hdrain.
  - rewrite Htrace, Hres. cbn [on_exit is_recording]. now rewrite Hrec.
Qed.

(** X13. When the instrumented call raises, whether the exception is the
    client's or the instrumentation's own, a recording span gets the
    exception recorded and its status set to error before it is ended; a
    span that does not record is just ended. *)
Theorem failure_is_recorded_on_the_span
    (fn : Callable) (tracer : Tracer) (args : list pyval)
    (kwargs : gmap string pyval) (env : Env) (h : Heap) (e : exn) :
  result_of (with_instrumentation fn tracer args kwargs env h) = Raise e ->
  trace_of (with_instrumentation fn tracer args kwargs env h) =
    EvSpanStart "bedrock.completion" CLIENT ::
      trace_of (fn args kwargs env h) ++
      (if should_record tracer "bedrock.completion" CLIENT
       then [EvRecordException e; EvSetStatusError]
       else []) ++
      [EvSpanEnd].
Proof.
  intros Hres.
  rewrite with_instrumentation_trace, Hres. cbn [on_exit is_recording].
  now destruct (should_record tracer "bedrock.completion" CLIENT).
Qed.


(* ===================================================================== *)
(** ** More on the client factory *)
(* ===================================================================== *)

(** X15. Without suppression, a client the factory creates for
    ["bedrock-runtime"] is returned with [invoke_model] replaced by the
    instrumented closure over its original [invoke_model] and the
    tracer, so that calling it is [with_instrumentation] around the
    original method; everything else the client carries is kept. *)
Theorem runtime_client_gets_the_instrumented_method
    (tracer : Tracer) (to_wrap : gmap string string) (wrapped : Factory)
    (instance : pyval) (args : list pyval) (kwargs : gmap string pyval)
    (env : Env) (h : Heap) (client : Client) :
  truthy (default PNone (context env !! _SUPPRESS_INSTRUMENTATION_KEY)) = false ->
  py_eq_str (kwargs_get kwargs "service_name") "bedrock-runtime" = true ->
  result_of (wrapped args kwargs env h) = Ok client ->
  exists client',
    result_of (_wrap tracer to_wrap wrapped instance args kwargs env h) = Ok client'
    /\ (forall a k env' h',
          invoke_model client' a k env' h' =
          with_instrumentation (invoke_model client) tracer a k env' h')
    /\ client_attrs client' = client_attrs client.
Proof.
  intros Hsup Hsvc Hc.
  exists (set_invoke_model client
            (_instrumented_model_invoke (invoke_model client) tracer)).
  split; [|split; reflexivity].
  now apply runtime_client_is_instrumented.
Qed.

(** X16. Wrapping [create_client] adds no effect of its own in any
    branch: the wrapper's trace and streams are those of the wrapped
    call, an exception of the factory comes out unchanged, and a client
    that is returned carries what the factory's client carried. *)
Theorem wrap_adds_no_effect
    (tracer : Tracer) (to_wrap : gmap string string) (wrapped : Factory)
    (instance : pyval) (args : list pyval) (kwargs : gmap string pyval)
    (env : Env) (h : Heap) :
  heap_of (_wrap tracer to_wrap wrapped instance args kwargs env h) =
    heap_of (wrapped args kwargs env h)
  /\ trace_of (_wrap tracer to_wrap wrapped instance args kwargs env h) =
     trace_of (wrapped args kwargs env h)
  /\ (forall e,
        result_of (wrapped args kwargs env h) = Raise e ->
        result_of (_wrap tracer to_wrap wrapped instance args kwargs env h) =
          Raise e)
  /\ (forall c,
        result_of (_wrap tracer to_wrap wrapped instance args kwargs env h) =
          Ok c ->
        exists c0,
          result_of (wrapped args kwargs env h) = Ok c0
          /\ client_attrs c = client_attrs c0).
Proof.
  unfold _wrap, _with_tracer_wrapper, _wrap_func.
  rewrite bind_get_value.
  destruct (truthy _); [now repeat split; eauto|].
  destruct (py_eq_str _ _); [|now repeat split; eauto].
  unfold mbind, M_bind, bind, ret. cbv zeta.
  destruct (wrapped args kwargs env h) as [[c0|e0] h' t'];
    cbn [result_of heap_of trace_of]; rewrite ?app_nil_r;
    repeat split; try congruence.
  intros c [= <-]. now exists c0.
Qed.

(* ===================================================================== *)
(** ** Instrumenting and uninstrumenting *)
(* ===================================================================== *)

Lemma append_assoc (a b c : string) :
  String.append (String.append a b) c = String.append a (String.append b c).
Proof.
  induction a as [|x a IH]; [reflexivity|].
  change (String x (String.append (String.append a b) c) =
          String x (String.append a (String.append b c))).
  now rewrite IH.
Qed.

(** X17. [_uninstrument] addresses exactly the attributes [_instrument]
    wrapped, entry by entry: one [wrap_function_wrapper] call and one
    [unwrap] call per entry of the table, and the dotted path
    [package.object.method] that the one patches is the path the other
    restores. For the module's table that is the single path
    [botocore.client.ClientCreator.create_client], whatever keyword
    arguments either method is given. *)
Theorem uninstrument_addresses_what_instrument_wrapped
    (tracer : Tracer) (methods : list (gmap string string))
    (get_tracer : pyval -> Tracer) (kwargs kwargs' : gmap string pyval) :
  patch_target <$> instrument_calls tracer methods =
    patch_target <$> uninstrument_calls methods
  /\ length (instrument_calls tracer methods) = length methods
  /\ length (uninstrument_calls methods) = length methods
  /\ Forall (fun c => is_wrap c = true) (instrument_calls tracer methods)
  /\ Forall (fun c => is_wrap c = false) (uninstrument_calls methods)
  /\ patch_target <$> _instrument get_tracer kwargs =
     patch_target <$> _uninstrument kwargs'
  /\ patch_target <$> _uninstrument kwargs' =
     [ "botocore.client.ClientCreator.create_client" ].
Proof.
  unfold instrument_calls, uninstrument_calls.
  split; [|split; [|split; [|split; [|split; [|split]]]]].
  - induction methods as [|m methods IH]; [reflexivity|].
    cbn [fmap list_fmap patch_target]. cbn [fmap list_fmap] in IH.
    rewrite IH. f_equal. now rewrite append_assoc.
  - now rewrite length_fmap.
  - now rewrite length_fmap.
  - induction methods; constructor; auto.
  - induction methods; constructor; auto.
  - reflexivity.
  - reflexivity.
Qed.

(* ===================================================================== *)
(** ** The block under line 89 *)
(* ===================================================================== *)


End Further.

(* ===================================================================== *)
(** ** The further properties at work *)
(* ===================================================================== *)

(** X3 on a request that decodes to an empty JSON array. *)
Lemma cohere_helper_on_an_array :
  (forall kvs, PList [] <> PDict kvs)
  /\ @vendor_helper example_imports Cohere (mkSpan true) (PList []) plain_env ∅ =
     mkOutcome (Raise (AttributeError "get")) ∅
       (set_events (mkSpan true) (@LLM_REQUEST_TYPE example_imports)
          (PStr (@COMPLETION_value example_imports))).
Proof.
  split; [intros kvs; discriminate|].
  apply (@vendor_helper_on_a_non_object example_imports Cohere (mkSpan true)
           (PList []) plain_env ∅).
  intros kvs; discriminate.
Defined.

(** X4 on an anthropic request that carries a prompt and nothing else. *)
Lemma anthropic_helper_on_a_bare_prompt :
  assoc [("prompt", PStr "Hello")] (top_p_field Anthropic) = None
  /\ assoc [("prompt", PStr "Hello")] (temperature_field Anthropic) = None
  /\ assoc [("prompt", PStr "Hello")] (max_tokens_field Anthropic) = None
  /\ @vendor_helper example_imports Anthropic (mkSpan true)
       (PDict [("prompt", PStr "Hello")]) plain_env ∅ =
     mkOutcome (Ok tt) ∅
       (set_events (mkSpan true) (@LLM_REQUEST_TYPE example_imports)
          (PStr (@COMPLETION_value example_imports))).
Proof.
  repeat (split; [reflexivity|]).
  apply (@vendor_helper_without_fields example_imports Anthropic (mkSpan true)
           [("prompt", PStr "Hello")] plain_env ∅); reflexivity.
Defined.

(** X5 on an empty response. *)
Lemma get_body_on_an_empty_response :
  (forall id, assoc [] "body" <> Some (PStream id))
  /\ @_get_body example_imports (PDict []) (PStr "application/json") plain_env ∅ =
     mkOutcome (Raise (AttributeError "iter_chunks")) ∅ [].
Proof.
  split; [intros id; discriminate|].
  apply (@get_body_without_a_stream example_imports [] (PStr "application/json")
           plain_env ∅).
  intros id; discriminate.
Defined.

(** X6 on the reply in two chunks and in one. *)
Lemma reply_in_one_chunk_or_two :
  assoc [ ("body", PStream 0); ("contentType", PStr "application/json") ] "body"
    = Some (PStream 0)
  /\ ({[ 0%nat := reply_chunks ]} : Heap) !! 0%nat = Some reply_chunks
  /\ ({[ 0%nat := [concat reply_chunks] ]} : Heap) !! 0%nat =
     Some [concat reply_chunks]
  /\ reply_chunks <> []
  /\ [concat reply_chunks] <> []
  /\ concat reply_chunks = concat [concat reply_chunks]
  /\ result_of (@_get_body example_imports reply_response
                  (PStr "application/json") plain_env {[ 0%nat := reply_chunks ]}) =
     result_of (@_get_body example_imports reply_response
                  (PStr "application/json") plain_env
                  {[ 0%nat := [concat reply_chunks] ]}).
Proof.
  split; [reflexivity|]. split; [vm_compute; reflexivity|].
  split; [vm_compute; reflexivity|]. split; [discriminate|].
  split; [discriminate|]. split; [vm_compute; reflexivity|].
  apply (@get_body_ignores_chunk_boundaries example_imports
           [ ("body", PStream 0); ("contentType", PStr "application/json") ]
           0%nat reply_chunks [concat reply_chunks] (PStr "application/json")
           plain_env {[ 0%nat := reply_chunks ]}
           {[ 0%nat := [concat reply_chunks] ]});
    try (vm_compute; reflexivity); discriminate.
Defined.

(** X7 on the reply: read as XML first, then as JSON. *)
Lemma reply_cannot_be_read_twice :
  assoc [ ("body", PStream 0); ("contentType", PStr "application/json") ] "body"
    = Some (PStream 0)
  /\ ({[ 0%nat := reply_chunks ]} : Heap) !! 0%nat = Some reply_chunks
  /\ @_get_body example_imports reply_response (PStr "application/json") plain_env
       (heap_of (@_get_body example_imports reply_response
                   (PStr "application/xml") plain_env {[ 0%nat := reply_chunks ]})) =
     mkOutcome
       (Raise (TypeError "the JSON object must be str, bytes or bytearray"))
       (<[0%nat := []]> {[ 0%nat := reply_chunks ]}) [].
Proof.
  split; [reflexivity|]. split; [vm_compute; reflexivity|].
  apply (@get_body_reads_once example_imports
           [ ("body", PStream 0); ("contentType", PStr "application/json") ]
           0%nat reply_chunks (PStr "application/xml") plain_env
           {[ 0%nat := reply_chunks ]});
    [reflexivity | vm_compute; reflexivity].
Defined.

(** X8 on a heap with a second stream. *)
Lemma other_stream_survives_get_body :
  body_stream reply_response <> Some 1%nat
  /\ heap_of (@_get_body example_imports reply_response (PStr "application/json")
                plain_env {[ 0%nat := reply_chunks; 1%nat := reply_chunks ]})
       !! 1%nat =
     ({[ 0%nat := reply_chunks; 1%nat := reply_chunks ]} : Heap) !! 1%nat.
Proof.
  split; [vm_compute; discriminate|].
  apply (@get_body_touches_only_its_stream example_imports reply_response
           (PStr "application/json") plain_env
           {[ 0%nat := reply_chunks; 1%nat := reply_chunks ]} 1%nat).
  vm_compute; discriminate.
Defined.

(** X9 on a call made while another response is still unread. *)
Lemma other_stream_survives_the_call :
  result_of (bedrock_answers [] cohere_kwargs plain_env {[ 1%nat := reply_chunks ]})
    = Ok reply_response
  /\ body_stream reply_response <> Some 1%nat
  /\ heap_of (@with_instrumentation example_imports bedrock_answers
                dropping_tracer [] cohere_kwargs plain_env
                {[ 1%nat := reply_chunks ]}) !! 1%nat =
     heap_of (bedrock_answers [] cohere_kwargs plain_env
                {[ 1%nat := reply_chunks ]}) !! 1%nat.
Proof.
  split; [reflexivity|]. split; [vm_compute; discriminate|].
  apply (@instrumented_call_touches_only_the_body example_imports
           bedrock_answers dropping_tracer [] cohere_kwargs plain_env
           {[ 1%nat := reply_chunks ]} reply_response 1%nat);
    [reflexivity | vm_compute; discriminate].
Defined.

(** X10 on a call without a [body]. *)
Lemma call_without_a_body_fails :
  result_of (bedrock_answers [] bodyless_kwargs plain_env ∅) = Ok reply_response
  /\ @loads example_imports (kwargs_get bodyless_kwargs "body") =
     Raise (TypeError "the JSON object must be str, bytes or bytearray")
  /\ result_of (@with_instrumentation example_imports bedrock_answers
                  dropping_tracer [] bodyless_kwargs plain_env ∅) =
     Raise (TypeError "the JSON object must be str, bytes or bytearray")
  /\ heap_of (@with_instrumentation example_imports bedrock_answers
                dropping_tracer [] bodyless_kwargs plain_env ∅) =
     heap_of (bedrock_answers [] bodyless_kwargs plain_env ∅).
Proof.
  split; [reflexivity|]. split; [vm_compute; reflexivity|].
  apply (@undecodable_request_fails_the_call example_imports bedrock_answers
           dropping_tracer [] bodyless_kwargs plain_env ∅ reply_response);
    [reflexivity | vm_compute; reflexivity].
Defined.

(** X12 on the cohere request. *)
Lemma recorded_cohere_call_fails_on_modelId :
  should_record recording_tracer "bedrock.completion" CLIENT = true
  /\ result_of (bedrock_answers [] cohere_kwargs plain_env ∅) = Ok reply_response
  /\ @loads example_imports (kwargs_get cohere_kwargs "body") = Ok cohere_request
  /\ result_of (@_get_body example_imports reply_response
                  (kwargs_get cohere_kwargs "accept") plain_env
                  (heap_of (bedrock_answers [] cohere_kwargs plain_env ∅))) =
     Ok cohere_reply
  /\ (result_of (@with_instrumentation example_imports bedrock_answers
                   recording_tracer [] cohere_kwargs plain_env ∅) =
        Raise (NameError "modelId")
      /\ unread reply_response
           (heap_of (@with_instrumentation example_imports bedrock_answers
                       recording_tracer [] cohere_kwargs plain_env ∅)) = Some []
      /\ trace_of (@with_instrumentation example_imports bedrock_answers
                     recording_tracer [] cohere_kwargs plain_env ∅) =
         EvSpanStart "bedrock.completion" CLIENT ::
           trace_of (bedrock_answers [] cohere_kwargs plain_env ∅) ++
           [EvRecordException (NameError "modelId"); EvSetStatusError; EvSpanEnd]).
Proof.
  split; [reflexivity|]. split; [reflexivity|].
  split; [vm_compute; reflexivity|]. split; [vm_compute; reflexivity|].
  apply (@recording_call_fails_on_modelId example_imports bedrock_answers
           recording_tracer [] cohere_kwargs plain_env ∅
           reply_response cohere_request cohere_reply);
    try reflexivity; vm_compute; reflexivity.
Defined.

(** X13 on a throttled client. *)
Lemma throttling_is_recorded_on_the_span :
  result_of (@with_instrumentation example_imports bedrock_throttles
               recording_tracer [] cohere_kwargs plain_env ∅) = Raise throttled
  /\ trace_of (@with_instrumentation example_imports bedrock_throttles
                 recording_tracer [] cohere_kwargs plain_env ∅) =
     EvSpanStart "bedrock.completion" CLIENT ::
       trace_of (bedrock_throttles [] cohere_kwargs plain_env ∅) ++
       (if should_record recording_tracer "bedrock.completion" CLIENT
        then [EvRecordException throttled; EvSetStatusError]
        else []) ++
       [EvSpanEnd].
Proof.
  split; [reflexivity|].
  apply (@failure_is_recorded_on_the_span example_imports bedrock_throttles
           recording_tracer [] cohere_kwargs plain_env ∅ throttled).
  reflexivity.
Defined.


(** X15 on a client for ["bedrock-runtime"]. *)
Lemma runtime_client_is_wrapped :
  truthy (default PNone (context plain_env !! "suppress_instrumentation")) = false
  /\ py_eq_str (kwargs_get runtime_kwargs "service_name") "bedrock-runtime" = true
  /\ result_of (create_client [] runtime_kwargs plain_env ∅) = Ok fresh_client
  /\ exists client',
       result_of (@_wrap example_imports recording_tracer ∅ create_client PNone
                    [] runtime_kwargs plain_env ∅) = Ok client'
       /\ (forall a k env' h',
             invoke_model client' a k env' h' =
             @with_instrumentation example_imports (invoke_model fresh_client)
               recording_tracer a k env' h')
       /\ client_attrs client' = client_attrs fresh_client.
Proof.
  split; [reflexivity|]. split; [reflexivity|]. split; [reflexivity|].
  apply (@runtime_client_gets_the_instrumented_method example_imports
           recording_tracer ∅ create_client PNone [] runtime_kwargs plain_env ∅
           fresh_client); reflexivity.
Defined.

